(** * A shallow embedding of python-mrz-scanner-sdk

    Covered: the MRZ classification cascade [check] of the camera examples
    and [test.py], the bounded capture loop of [examples/camera/app.py],
    the intermediate-result correlation store of
    [examples/official/mrz_scanner_gui.py], the result constructors
    [MrzResult.__init__] / [DCPResultProcessor.__init__], and
    [MrzScanner.decode], [decodeMat] / [decodeBytes] and
    [convertMat2ImageData], and the result extraction and date formatting
    of the GUI. *)

From stdpp Require Import base gmap strings list.
From Stdlib Require Import String Ascii ZArith Lia DecimalString.

Open Scope string_scope.
Open Scope list_scope.

(** ** Python values that raise *)

(** Python exceptions that derive from [Exception] (the class every
    [except Exception] clause of the repository catches). *)
Inductive exc :=
| IndexError (msg : string)
| PyError (cls : string) (msg : string).

(** A Python computation: it returns a value or raises. *)
Inductive res (A : Type) :=
| Ok (a : A)
| Raise (e : exc).
Arguments Ok {A} a.
Arguments Raise {A} e.

Definition res_bind {A B} (m : res A) (k : A -> res B) : res B :=
  match m with
  | Ok a => k a
  | Raise e => Raise e
  end.

(** [let! x := m in k] runs [m] and, when it returns, continues with [k];
    an exception propagates. *)
Notation "'let!' x := m 'in' k" := (res_bind m (fun x => k))
  (at level 200, x name, m at level 100, k at level 200).

(** [try: body except Exception: handler] *)
Definition try_except {A} (body : res A) (handler : exc -> res A) : res A :=
  match body with
  | Ok a => Ok a
  | Raise e => handler e
  end.

(** ** The classification cascade [check] *)
Module Classifier.

(** The five document checkers of the [mrz] package, in the order [check]
    tries them. *)
Inductive doc_tag := TD1 | TD2 | TD3 | MRVA | MRVB.

(** What [check] returns: a pair [(tag, fields)] or the string
    ['No valid MRZ information found']. *)
Inductive check_result (F : Type) :=
| Matched (tag : doc_tag) (fields : F)
| NoMatch.
Arguments Matched {F} tag fields.
Arguments NoMatch {F}.

(** A constructed checker object: [bool(c)] and [c.fields()], each of
    which may raise. *)
Record code_checker (F : Type) := {
  checker_bool : res bool;
  checker_fields : res F
}.
Arguments checker_bool {F} c.
Arguments checker_fields {F} c.

Section Check.
Context {L F : Type}.

(** The constructors [TD1CodeChecker(lines)], ..., [MRVBCodeChecker(lines)];
    a constructor may raise on malformed input. *)
Variables TD1CodeChecker TD2CodeChecker TD3CodeChecker
          MRVACodeChecker MRVBCodeChecker : L -> res (code_checker F).

(** The body of one [try] block: [c = Checker(lines); if bool(c): return
    tag, c.fields()]; [Some r] is the early return, [None] falls through. *)
Definition try_block (mk : L -> res (code_checker F)) (tag : doc_tag)
    (lines : L) : res (option (check_result F)) :=
  let! c := mk lines in
  let! b := checker_bool c in
  if b then (let! f := checker_fields c in Ok (Some (Matched tag f)))
  else Ok None.

(** One [try ... except Exception as err: pass] block followed by the
    rest of the function. *)
Definition guarded (mk : L -> res (code_checker F)) (tag : doc_tag)
    (lines : L) (rest : res (check_result F)) : res (check_result F) :=
  let! r := try_except (try_block mk tag lines) (fun _ => Ok None) in
  match r with
  | Some out => Ok out
  | None => rest
  end.

(** [def check(lines)] *)
Definition check (lines : L) : res (check_result F) :=
  guarded TD1CodeChecker TD1 lines (
  guarded TD2CodeChecker TD2 lines (
  guarded TD3CodeChecker TD3 lines (
  guarded MRVACodeChecker MRVA lines (
  guarded MRVBCodeChecker MRVB lines (
  Ok NoMatch))))).

End Check.

(** The spec's reading: a checker matches [lines] with fields [f] when its
    constructor, [bool] and [fields] all succeed and [bool] is true; every
    other outcome is a rejection. *)
Definition matches {L F} (mk : L -> res (code_checker F)) (lines : L)
    : option F :=
  match mk lines with
  | Ok c =>
      match checker_bool c with
      | Ok true =>
          match checker_fields c with
          | Ok f => Some f
          | Raise _ => None
          end
      | _ => None
      end
  | Raise _ => None
  end.

(** The spec's classifier: try the checkers of a priority list in order and
    return the first match, or [NoMatch]. *)
Fixpoint first_match {L F} (order : list (doc_tag * (L -> res (code_checker F))))
    (lines : L) : check_result F :=
  match order with
  | [] => NoMatch
  | (tag, mk) :: rest =>
      match matches mk lines with
      | Some f => Matched tag f
      | None => first_match rest lines
      end
  end.

(** A checker raises on [lines]: its constructor, its [bool] or (when
    [bool] is true) its [fields()] raises. *)
Definition raises {L F} (mk : L -> res (code_checker F)) (lines : L) : Prop :=
  exists e, mk lines = Raise e \/
    exists c, mk lines = Ok c /\
      (checker_bool c = Raise e \/
       (checker_bool c = Ok true /\ checker_fields c = Raise e)).

End Classifier.

(** ** The bounded capture loop of [examples/camera/app.py] *)
Module Pipeline.

(** [threadn = 1 # cv2.getNumberOfCPUs()] *)
Definition threadn : nat := 1.

(** What [scanner.decodeMat(frame)] does for a frame: it raises, or
    returns the recognized text lines (only their [text] matters here). *)
Inductive recog_outcome :=
| RecRaise (err : exc)
| RecOk (texts : list string).

(** [def process_frame(frame)]: the text printed by [print(err)] and the
    returned [results] ([None] when the recognizer raised). *)
Definition process_frame (o : recog_outcome) : list exc * option (list string) :=
  match o with
  | RecRaise err => ([err], None)
  | RecOk texts => ([], Some texts)
  end.

(** What the loop does, as observable events. *)
Inductive event :=
| PrintedErr (err : exc)          (* [print(err)] in [process_frame] *)
| Checked (frame : nat) (s : string)
                                  (* [print(check(s[:-1]))] *)
| Submitted (frame : nat)         (* [pool.apply_async(process_frame, ...)] *)
| Dropped (frame : nat).          (* the frame is shown but not submitted *)

(** [s = ''; for result in results: s += result.text + '\n'] *)
Fixpoint join_lines (texts : list string) : string :=
  match texts with
  | [] => ""
  | t :: rest => String.append (String.append t (String (Ascii.ascii_of_nat 10) "")) (join_lines rest)
  end.

(** Python's [s[:-1]] *)
Definition drop_last (s : string) : string :=
  substring 0 (String.length s - 1) s.

(** The events of one finished task [t] taken from the head of [mrzTasks]:
    its [process_frame] printed the error (on the worker thread, before the
    task became ready), and [if results != None] its lines reach [check]. *)
Definition task_events (recog : nat -> recog_outcome) (t : nat) : list event :=
  let (printed, results) := process_frame (recog t) in
  map PrintedErr printed ++
  match results with
  | Some texts => [Checked t (drop_last (join_lines texts))]
  | None => []
  end.

Record loop_state := {
  mrzTasks : list nat;   (* the deque of pending tasks, by frame number *)
  log : list event
}.

Section Loop.
(** The concurrency bound ([threadn]). *)
Variable bound : nat.
(** The recognizer's outcome for each frame. *)
Variable recog : nat -> recog_outcome.
(** [ready i t]: at iteration [i], the task of frame [t] is ready
    ([mrzTasks[0].ready()]); decided by the thread pool. *)
Variable ready : nat -> nat -> bool.

(** [while len(mrzTasks) > 0 and mrzTasks[0].ready():
       results = mrzTasks.popleft().get() ...] *)
Fixpoint drain (i : nat) (tasks : list nat) (lg : list event) : list nat * list event :=
  match tasks with
  | [] => ([], lg)
  | t :: rest =>
      if ready i t then drain i rest (lg ++ task_events recog t)
      else (tasks, lg)
  end.

(** [if len(mrzTasks) < threadn: mrzTasks.append(pool.apply_async(...))] *)
Definition submit (i : nat) (tasks : list nat) (lg : list event) : loop_state :=
  if Nat.ltb (List.length tasks) bound
  then {| mrzTasks := tasks ++ [i]; log := lg ++ [Submitted i] |}
  else {| mrzTasks := tasks; log := lg ++ [Dropped i] |}.

(** One iteration of [while True:] on the captured frame number [i]. *)
Definition iteration (i : nat) (st : loop_state) : loop_state :=
  let (tasks, lg) := drain i (mrzTasks st) (log st) in
  submit i tasks lg.

(** The first [n] iterations, from [mrzTasks = deque()]. *)
Fixpoint run (n : nat) : loop_state :=
  match n with
  | 0 => {| mrzTasks := []; log := [] |}
  | S k => iteration k (run k)
  end.

End Loop.

(** The submission decisions of a run. *)
Definition is_schedule (e : event) : bool :=
  match e with
  | Submitted _ | Dropped _ => true
  | _ => false
  end.

Definition schedule (lg : list event) : list event := filter is_schedule lg.

Definition submitted_frames (lg : list event) : list nat :=
  omap (fun e => match e with Submitted i => Some i | _ => None end) lg.

Definition dropped_frames (lg : list event) : list nat :=
  omap (fun e => match e with Dropped i => Some i | _ => None end) lg.

(** The frames whose results reached [check], in log order. *)
Definition checked_frames (lg : list event) : list nat :=
  omap (fun e => match e with Checked i _ => Some i | _ => None end) lg.

(** A thread pool that finishes each task before the next frame is read:
    at iteration [i] the tasks of the frames before [i] are ready. *)
Definition prompt (i t : nat) : bool := Nat.ltb t i.

(** Whether the recognizer returned results for frame [t]. *)
Definition recog_ok (recog : nat -> recog_outcome) (t : nat) : bool :=
  match recog t with
  | RecOk _ => true
  | RecRaise _ => false
  end.

End Pipeline.

(** ** The intermediate-result store of [examples/official/mrz_scanner_gui.py] *)
Module Correlation.

(** An intermediate result unit of the SDK: it carries the hash id of the
    image it was computed from ([get_original_image_hash_id()]) and a
    payload that stands for the rest of the unit. *)
Record Unit := {
  original_image_hash_id : string;
  unit_data : nat
}.

(** [IntermediateResultExtraInfo]: only [is_section_level_result] is read. *)
Record ExtraInfo := { is_section_level_result : bool }.

(** [class NeededResultUnit] *)
Record NeededResultUnit := {
  deskewed_image_unit : option Unit;
  localized_text_lines_unit : option Unit;
  scaled_colour_img_unit : option Unit;
  detected_quads_unit : option Unit;
  recognized_text_lines_unit : option Unit
}.

(** [NeededResultUnit()]: every attribute [None]. *)
Definition new_NeededResultUnit : NeededResultUnit :=
  {| deskewed_image_unit := None; localized_text_lines_unit := None;
     scaled_colour_img_unit := None; detected_quads_unit := None;
     recognized_text_lines_unit := None |}.

(** The five artifact kinds, one per [on_*_received] callback. *)
Inductive kind := Deskewed | Localized | Scaled | Quads | Recognized.

Definition kind_eqb (a b : kind) : bool :=
  match a, b with
  | Deskewed, Deskewed | Localized, Localized | Scaled, Scaled
  | Quads, Quads | Recognized, Recognized => true
  | _, _ => false
  end.

(** The attribute of a [NeededResultUnit] that holds kind [k]. *)
Definition slot (k : kind) (g : NeededResultUnit) : option Unit :=
  match k with
  | Deskewed => deskewed_image_unit g
  | Localized => localized_text_lines_unit g
  | Scaled => scaled_colour_img_unit g
  | Quads => detected_quads_unit g
  | Recognized => recognized_text_lines_unit g
  end.

(** [self.unit_groups[id].<attribute of k> = result] *)
Definition set_slot (k : kind) (r : Unit) (g : NeededResultUnit) : NeededResultUnit :=
  match k with
  | Deskewed =>
      {| deskewed_image_unit := Some r; localized_text_lines_unit := localized_text_lines_unit g;
         scaled_colour_img_unit := scaled_colour_img_unit g; detected_quads_unit := detected_quads_unit g;
         recognized_text_lines_unit := recognized_text_lines_unit g |}
  | Localized =>
      {| deskewed_image_unit := deskewed_image_unit g; localized_text_lines_unit := Some r;
         scaled_colour_img_unit := scaled_colour_img_unit g; detected_quads_unit := detected_quads_unit g;
         recognized_text_lines_unit := recognized_text_lines_unit g |}
  | Scaled =>
      {| deskewed_image_unit := deskewed_image_unit g; localized_text_lines_unit := localized_text_lines_unit g;
         scaled_colour_img_unit := Some r; detected_quads_unit := detected_quads_unit g;
         recognized_text_lines_unit := recognized_text_lines_unit g |}
  | Quads =>
      {| deskewed_image_unit := deskewed_image_unit g; localized_text_lines_unit := localized_text_lines_unit g;
         scaled_colour_img_unit := scaled_colour_img_unit g; detected_quads_unit := Some r;
         recognized_text_lines_unit := recognized_text_lines_unit g |}
  | Recognized =>
      {| deskewed_image_unit := deskewed_image_unit g; localized_text_lines_unit := localized_text_lines_unit g;
         scaled_colour_img_unit := scaled_colour_img_unit g; detected_quads_unit := detected_quads_unit g;
         recognized_text_lines_unit := Some r |}
  end.

(** [self.unit_groups: Dict[str, NeededResultUnit]] *)
Abbreviation unit_groups := (gmap string NeededResultUnit).

(** [if self.unit_groups.get(id) is None:
         self.unit_groups[id] = NeededResultUnit()] *)
Definition ensure_group (id : string) (ug : unit_groups) : unit_groups :=
  match ug !! id with
  | None => <[id := new_NeededResultUnit]> ug
  | Some _ => ug
  end.

(** The shared body of the callbacks: [id = result.get_original_image_hash_id()],
    create the group if absent, then set the attribute of kind [k]. *)
Definition store (k : kind) (result : Unit) (ug : unit_groups) : unit_groups :=
  let id := original_image_hash_id result in
  alter (set_slot k result) id (ensure_group id ug).

(** The [on_*_received] callbacks. All but
    [on_scaled_colour_image_unit_received] first test
    [if info.is_section_level_result:]. *)
Definition on_deskewed_image_received (result : Unit) (info : ExtraInfo) (ug : unit_groups) :=
  if is_section_level_result info then store Deskewed result ug else ug.
Definition on_localized_text_lines_received (result : Unit) (info : ExtraInfo) (ug : unit_groups) :=
  if is_section_level_result info then store Localized result ug else ug.
Definition on_scaled_colour_image_unit_received (result : Unit) (info : ExtraInfo) (ug : unit_groups) :=
  store Scaled result ug.
Definition on_recognized_text_lines_received (result : Unit) (info : ExtraInfo) (ug : unit_groups) :=
  if is_section_level_result info then store Recognized result ug else ug.
Definition on_detected_quads_received (result : Unit) (info : ExtraInfo) (ug : unit_groups) :=
  if is_section_level_result info then store Quads result ug else ug.

(** The callback the SDK invokes for an artifact of kind [k]. *)
Definition receive (k : kind) : Unit -> ExtraInfo -> unit_groups -> unit_groups :=
  match k with
  | Deskewed => on_deskewed_image_received
  | Localized => on_localized_text_lines_received
  | Scaled => on_scaled_colour_image_unit_received
  | Quads => on_detected_quads_received
  | Recognized => on_recognized_text_lines_received
  end.

(** Whether the callback of kind [k] stores its artifact. *)
Definition accepted (k : kind) (info : ExtraInfo) : bool :=
  match k with
  | Scaled => true
  | _ => is_section_level_result info
  end.

(** [def clear(self): self.unit_groups.clear()] *)
Definition clear (ug : unit_groups) : unit_groups := ∅.

(** A point and a [Quadrilateral] of the SDK. *)
Record Point := { px : Z; py : Z }.
Record Quadrilateral := { points : list Point }.

(** [EnumErrorCode.EC_OK] *)
Definition EC_OK : Z := 0.

(** The SDK's [IdentityProcessor().find_portrait_zone(scaled, localized,
    recognized, quads, deskewed)]: an error code and a zone. *)
Definition portrait_finder : Type :=
  option Unit -> option Unit -> option Unit -> option Unit -> option Unit ->
  Z * option Quadrilateral.

(** [def get_portrait_zone(self, hash_id)] *)
Definition get_portrait_zone (find_portrait_zone : portrait_finder)
    (ug : unit_groups) (hash_id : string) : option Quadrilateral :=
  match ug !! hash_id with
  | None => None
  | Some units =>
      let (ret, portrait_zone) :=
        find_portrait_zone
          (scaled_colour_img_unit units)
          (localized_text_lines_unit units)
          (recognized_text_lines_unit units)
          (detected_quads_unit units)
          (deskewed_image_unit units) in
      if Z.eqb ret EC_OK then portrait_zone else None
  end.

(** A bundle holds all five artifacts. *)
Definition complete (g : NeededResultUnit) : Prop :=
  forall k, slot k g <> None.

(** One arrival of an intermediate result: the callback of its kind. *)
Definition arrive (ug : unit_groups) (a : kind * Unit * ExtraInfo) : unit_groups :=
  let '(k, r, info) := a in receive k r info ug.

(** Whether an arrival belongs to the image of hash id [h]. *)
Definition for_hash (h : string) (a : kind * Unit * ExtraInfo) : bool :=
  let '(_, r, _) := a in String.eqb (original_image_hash_id r) h.

End Correlation.

(** ** Result construction: [mrzscanner/__init__.py] and
    [examples/official/mrz_scanner_gui.py] *)
Module Results.

(** [EnumValidationStatus] *)
Inductive ValidationStatus := VS_NONE | VS_SUCCEEDED | VS_FAILED.

Definition is_failed (s : ValidationStatus) : bool :=
  match s with VS_FAILED => true | _ => false end.

(** A [ParsedResultItem] of the SDK: its code type and, per field name,
    [get_field_value(name)] and [get_field_validation_status(name)]. *)
Record ParsedResultItem := {
  get_code_type : string;
  get_field_value : string -> option string;
  get_field_validation_status : string -> ValidationStatus
}.

Record Point := { px : Z; py : Z }.

(** [if item.get_field_value(name) != None and
        item.get_field_validation_status(name) != EnumValidationStatus.VS_FAILED:
        <attribute> = item.get_field_value(name)] *)
Definition field_if_valid (item : ParsedResultItem) (name : string) : option string :=
  match get_field_value item name with
  | Some v => if is_failed (get_field_validation_status item name) then None else Some v
  | None => None
  end.

(** The [doc_id] branch: [if self.doc_type == "MRTD_TD3_PASSPORT": if
    passportNumber ... elif documentNumber ...]. *)
Definition doc_id_of (item : ParsedResultItem) : option string :=
  if String.eqb (get_code_type item) "MRTD_TD3_PASSPORT" then
    match field_if_valid item "passportNumber" with
    | Some v => Some v
    | None => field_if_valid item "documentNumber"
    end
  else None.

(** [line = item.get_field_value(name); if line is not None: if status ==
    VS_FAILED: line += suffix; self.raw_text.append(line)] *)
Definition raw_line (suffix : string) (item : ParsedResultItem) (name : string) : list string :=
  match get_field_value item name with
  | Some line =>
      [if is_failed (get_field_validation_status item name)
       then String.append line suffix else line]
  | None => []
  end.

(** [class MrzResult] (the location's four points [x1..y4]). *)
Record MrzResult := {
  x1 : Z; y1 : Z; x2 : Z; y2 : Z; x3 : Z; y3 : Z; x4 : Z; y4 : Z;
  doc_type : string;
  raw_text : list string;
  doc_id : option string;
  surname : option string;
  given_name : option string;
  nationality : option string;
  issuer : option string;
  gender : option string;
  date_of_birth : option string;
  date_of_expiry : option string
}.

(** [MrzResult.__init__(self, item, location)]; [location.points] has four
    points (the SDK's quadrilateral), a shorter list raises [IndexError]. *)
Definition mk_MrzResult (item : ParsedResultItem) (location : list Point) : res MrzResult :=
  match location with
  | p1 :: p2 :: p3 :: p4 :: _ =>
      Ok {| x1 := px p1; y1 := py p1; x2 := px p2; y2 := py p2;
            x3 := px p3; y3 := py p3; x4 := px p4; y4 := py p4;
            doc_type := get_code_type item;
            raw_text := raw_line ", Validation Failed" item "line1"
                        ++ raw_line ", Validation Failed" item "line2"
                        ++ raw_line ", Validation Failed" item "line3";
            doc_id := doc_id_of item;
            surname := field_if_valid item "primaryIdentifier";
            given_name := field_if_valid item "secondaryIdentifier";
            nationality := field_if_valid item "nationality";
            issuer := field_if_valid item "issuingState";
            gender := field_if_valid item "sex";
            date_of_birth := field_if_valid item "dateOfBirth";
            date_of_expiry := field_if_valid item "dateOfExpiry" |}
  | _ => Raise (IndexError "list index out of range")
  end.

(** The attributes of a [DCPResultProcessor]. *)
Record DCPResultProcessor := {
  dcp_doc_type : string;
  dcp_raw_text : list string;
  dcp_doc_id : option string;
  dcp_surname : option string;
  dcp_given_name : option string;
  dcp_nationality : option string;
  dcp_issuer : option string;
  dcp_gender : option string;
  dcp_date_of_birth : option string;
  dcp_date_of_expiry : option string;
  dcp_is_passport : bool
}.

(** [DCPResultProcessor.__init__(self, item)]; its lines loop is
    [for i in range(1, 4)] over ["line1"], ["line2"], ["line3"]. *)
Definition mk_DCPResultProcessor (item : ParsedResultItem) : DCPResultProcessor :=
  {| dcp_doc_type := get_code_type item;
     dcp_raw_text := flat_map (raw_line " [Validation Failed]" item) ["line1"; "line2"; "line3"];
     dcp_doc_id := doc_id_of item;
     dcp_surname := field_if_valid item "primaryIdentifier";
     dcp_given_name := field_if_valid item "secondaryIdentifier";
     dcp_nationality := field_if_valid item "nationality";
     dcp_issuer := field_if_valid item "issuingState";
     dcp_gender := field_if_valid item "sex";
     dcp_date_of_birth := field_if_valid item "dateOfBirth";
     dcp_date_of_expiry := field_if_valid item "dateOfExpiry";
     dcp_is_passport := String.eqb (get_code_type item) "MRTD_TD3_PASSPORT" |}.

(** The named fields of an [MrzResult] with the parsed field each is read
    from ([doc_id] apart). *)
Definition mrz_named_fields (r : MrzResult) : list (string * option string) :=
  [("primaryIdentifier", surname r); ("secondaryIdentifier", given_name r);
   ("nationality", nationality r); ("issuingState", issuer r); ("sex", gender r);
   ("dateOfBirth", date_of_birth r); ("dateOfExpiry", date_of_expiry r)].

Definition dcp_named_fields (d : DCPResultProcessor) : list (string * option string) :=
  [("primaryIdentifier", dcp_surname d); ("secondaryIdentifier", dcp_given_name d);
   ("nationality", dcp_nationality d); ("issuingState", dcp_issuer d); ("sex", dcp_gender d);
   ("dateOfBirth", dcp_date_of_birth d); ("dateOfExpiry", dcp_date_of_expiry d)].

(** A FAILED MRZ line keeps its value, with [suffix] appended, in [raw]. *)
Definition failed_lines_surface (suffix : string) (item : ParsedResultItem)
    (raw : list string) : Prop :=
  forall name line, In name ["line1"; "line2"; "line3"] ->
    get_field_value item name = Some line ->
    get_field_validation_status item name = VS_FAILED ->
    In (String.append line suffix) raw.

(** A FAILED named field is left [None], and [doc_id] only takes the value
    of a passport or document number that did not fail. *)
Definition failed_fields_dropped (item : ParsedResultItem)
    (named : list (string * option string)) (docid : option string) : Prop :=
  (forall name v, In (name, v) named ->
     get_field_validation_status item name = VS_FAILED -> v = None) /\
  (forall v, docid = Some v -> exists name,
     (name = "passportNumber" \/ name = "documentNumber") /\
     get_field_value item name = Some v /\
     get_field_validation_status item name <> VS_FAILED).

(** Python's [l[i]] on a list. *)
Definition py_index {A} (l : list A) (i : nat) : res A :=
  match nth_error l i with
  | Some x => Ok x
  | None => Raise (IndexError "list index out of range")
  end.

(** An item of the recognized text lines result: its [get_location()]. *)
Record TextLineItem := { get_location : list Point }.

(** The [CapturedResult] of [self.cvr_instance.capture(input,
    'ReadPassportAndId')]. *)
Record CapturedResult := {
  get_error_code : Z;
  get_error_string : string;
  get_recognized_text_lines_result : option (list TextLineItem);
  get_parsed_result : option (list ParsedResultItem)
}.

(** [EnumErrorCode.EC_OK] *)
Definition EC_OK : Z := 0.

(** [for i in range(len(items)):
         mrz = MrzResult(parsed_items[i], items[i].get_location())
         output.append(mrz)], from index [i] on. *)
Fixpoint build_output (parsed_items : list ParsedResultItem) (i : nat)
    (items : list TextLineItem) (output : list MrzResult) : res (list MrzResult) :=
  match items with
  | [] => Ok output
  | it :: rest =>
      let! p := py_index parsed_items i in
      let! mrz := mk_MrzResult p (get_location it) in
      build_output parsed_items (S i) rest (output ++ [mrz])
  end.

(** [MrzScanner.decode] after the [capture] call: what it prints
    ([print("Error:", code, string)]) and what it returns or raises. *)
Definition decode (result : CapturedResult) : list (Z * string) * res (list MrzResult) :=
  if negb (Z.eqb (get_error_code result) EC_OK) then
    ([(get_error_code result, get_error_string result)], Ok [])
  else
    let items := match get_recognized_text_lines_result result with
                 | Some l => l | None => [] end in
    let parsed_items := match get_parsed_result result with
                        | Some l => l | None => [] end in
    ([], build_output parsed_items 0 items []).

(** [items] and [parsed_items] as [decode] and
    [on_captured_result_received] compute them. *)
Definition line_items_of (result : CapturedResult) : list TextLineItem :=
  match get_recognized_text_lines_result result with Some l => l | None => [] end.

Definition parsed_items_of (result : CapturedResult) : list ParsedResultItem :=
  match get_parsed_result result with Some l => l | None => [] end.

(** [MyCapturedResultReceiver.on_captured_result_received(self, result)]:
    the lists passed to [self.listener(output)] and whether it raised.
    Unlike [decode] it does not look at the error code. *)
Definition on_captured_result_received (result : CapturedResult)
    : list (list MrzResult) * res unit :=
  let items := match get_recognized_text_lines_result result with
               | Some l => l | None => [] end in
  let parsed_items := match get_parsed_result result with
                      | Some l => l | None => [] end in
  match build_output parsed_items 0 items [] with
  | Ok output => ([output], Ok tt)
  | Raise e => ([], Raise e)
  end.

End Results.

(** ** Result extraction of [examples/official/mrz_scanner_gui.py] *)
Module Gui.
Import Results.

(** [@dataclass class MRZResult] *)
Record MRZResult := {
  raw_lines : list string;
  r_doc_type : string;
  r_doc_id : string;
  r_surname : string;
  r_given_name : string;
  r_nationality : string;
  r_issuer : string;
  r_gender : string;
  r_date_of_birth : string;
  r_date_of_expiry : string;
  is_passport : bool;
  mrz_locations : list Correlation.Quadrilateral;
  portrait_zone : option Correlation.Quadrilateral
}.

(** Python's [x or ""] on an optional string. *)
Definition or_empty (x : option string) : string :=
  match x with Some v => v | None => "" end.

(** [DCPResultProcessor.to_mrz_result(self, portrait_zone, mrz_locations)] *)
Definition to_mrz_result (d : DCPResultProcessor)
    (pz : option Correlation.Quadrilateral)
    (mrz_locations : list Correlation.Quadrilateral) : MRZResult :=
  {| raw_lines := dcp_raw_text d;
     r_doc_type := dcp_doc_type d;
     r_doc_id := or_empty (dcp_doc_id d);
     r_surname := or_empty (dcp_surname d);
     r_given_name := or_empty (dcp_given_name d);
     r_nationality := or_empty (dcp_nationality d);
     r_issuer := or_empty (dcp_issuer d);
     r_gender := or_empty (dcp_gender d);
     r_date_of_birth := or_empty (dcp_date_of_birth d);
     r_date_of_expiry := or_empty (dcp_date_of_expiry d);
     is_passport := dcp_is_passport d;
     mrz_locations := mrz_locations;
     portrait_zone := pz |}.

(** The parts of a [CapturedResult] the GUI reads: the parsed items, the
    locations of the recognized text line items, and
    [get_original_image_hash_id()]. *)
Record GuiCapturedResult := {
  g_parsed_result : option (list ParsedResultItem);
  g_line_locations : option (list Correlation.Quadrilateral);
  g_hash_id : string
}.

Section Extract.
(** The SDK's [find_portrait_zone]. *)
Variable fpz : Correlation.portrait_finder.

(** The loop [for item in parsed_result.get_items(): processor =
    DCPResultProcessor(item); portrait_zone = None; if processor.is_passport
    and self.irr: portrait_zone = self.irr.get_portrait_zone(hash_id); ...];
    [irr] is [self.irr] ([None] or the receiver's [unit_groups]). *)
Definition results_of_items (irr : option (gmap string Correlation.NeededResultUnit))
    (hash_id : string) (mrz_locations : list Correlation.Quadrilateral)
    (items : list ParsedResultItem) : list MRZResult :=
  map (fun item =>
         let processor := mk_DCPResultProcessor item in
         let portrait_zone :=
           match irr with
           | Some ug => if dcp_is_passport processor
                        then Correlation.get_portrait_zone fpz ug hash_id else None
           | None => None
           end in
         to_mrz_result processor portrait_zone mrz_locations) items.

(** [mrz_locations.append(item.get_location())] for every line item. *)
Definition locations_of (result : GuiCapturedResult) : list Correlation.Quadrilateral :=
  match g_line_locations result with Some l => l | None => [] end.

(** [MRZScannerWindow._extract_mrz_results(self, result)] *)
Definition extract_mrz_results (irr : option (gmap string Correlation.NeededResultUnit))
    (result : GuiCapturedResult) : list MRZResult :=
  match g_parsed_result result with
  | None | Some [] => []
  | Some items => results_of_items irr (g_hash_id result) (locations_of result) items
  end.

(** [CameraCaptureThread._process_frame(self, frame)] after
    [self.cvr.capture(...)]: [None] from the capture gives no result. *)
Definition process_frame (irr : option (gmap string Correlation.NeededResultUnit))
    (result : option GuiCapturedResult) : list MRZResult :=
  match result with
  | None => []
  | Some r =>
      match g_parsed_result r with
      | None => []
      | Some items => results_of_items irr (g_hash_id r) (locations_of r) items
      end
  end.

(** One pass of [while self.running:] in [CameraCaptureThread.run]:
    [self.irr.clear()], then the capture, during which the SDK calls the
    receiver's callbacks with [arrivals], then [_process_frame]. Returns
    the receiver's store and the frame's results. *)
Definition camera_frame (ug_prev : gmap string Correlation.NeededResultUnit)
    (arrivals : list (Correlation.kind * Correlation.Unit * Correlation.ExtraInfo))
    (result : option GuiCapturedResult)
    : gmap string Correlation.NeededResultUnit * list MRZResult :=
  let ug := fold_left (fun ug '(k, r, info) => Correlation.receive k r info ug)
                      arrivals (Correlation.clear ug_prev) in
  (ug, process_frame (Some ug) result).

End Extract.
(** *** [MRZScannerWindow._format_date]

    Strings are sequences of code points below 256 (one [ascii] each), so
    [String.length] is Python's [len]. *)

(** The characters [int()] strips around its argument. *)
Definition int_space (c : ascii) : bool :=
  let n := nat_of_ascii c in
  (Nat.leb 9 n && Nat.leb n 13) || Nat.eqb n 32 || Nat.eqb n 133 || Nat.eqb n 160.

Fixpoint drop_space (l : list ascii) : list ascii :=
  match l with
  | c :: r => if int_space c then drop_space r else l
  | [] => []
  end.

Definition strip (l : list ascii) : list ascii := rev (drop_space (rev (drop_space l))).

(** The decimal digits 0-9 (no other code point below 256 is a decimal digit). *)
Definition digit_value (c : ascii) : option Z :=
  let n := nat_of_ascii c in
  if Nat.leb 48 n && Nat.leb n 57 then Some (Z.of_nat (n - 48)) else None.

(** Digits with single underscores between them. *)
Fixpoint parse_digits (l : list ascii) (acc : Z) (after_digit : bool) : option Z :=
  match l with
  | [] => if after_digit then Some acc else None
  | c :: r =>
      match digit_value c with
      | Some d => parse_digits r (acc * 10 + d)%Z true
      | None => if Ascii.eqb c "_"%char && after_digit then parse_digits r acc false else None
      end
  end.

(** [int(s)]; [None] is the [ValueError]. *)
Definition py_int (s : string) : option Z :=
  match strip (list_ascii_of_string s) with
  | c :: r =>
      if Ascii.eqb c "+"%char then parse_digits r 0 false
      else if Ascii.eqb c "-"%char then option_map Z.opp (parse_digits r 0 false)
      else parse_digits (c :: r) 0 false
  | [] => None
  end.

Fixpoint zeros (k : nat) : string :=
  match k with
  | 0 => ""
  | S k => String "0" (zeros k)
  end.

(** [f"{n:0<width>d}"]: the zeros go between the sign and the digits. *)
Definition format_0d (width : nat) (n : Z) : string :=
  let sign := if Z.ltb n 0 then "-" else "" in
  let digits := NilZero.string_of_uint (N.to_uint (Z.abs_N n)) in
  String.append sign
    (String.append (zeros (width - String.length sign - String.length digits)) digits).

(** [def _format_date(self, date_str)]; the bare [except:] returns
    [date_str] when one of the three [int()] calls raises. *)
Definition format_date (date_str : string) : string :=
  if String.eqb date_str "" || negb (Nat.eqb (String.length date_str) 6) then date_str
  else
    match py_int (substring 0 2 date_str), py_int (substring 2 2 date_str),
          py_int (substring 4 2 date_str) with
    | Some year, Some month, Some day =>
        let year := if Z.leb year 30 then (year + 2000)%Z else (year + 1900)%Z in
        String.append (format_0d 4 year)
          (String.append "-" (String.append (format_0d 2 month)
                                (String.append "-" (format_0d 2 day))))
    | _, _, _ => date_str
    end.

(** [c.isdigit()] for [c] below 256 that is a decimal digit. *)
Definition is_digit (c : ascii) : bool :=
  match digit_value c with Some _ => true | None => false end.

End Gui.

(** ** [convertMat2ImageData] of [mrzscanner/__init__.py] *)
Module ImageConv.

(** [EnumImagePixelFormat] values used by the conversion. *)
Inductive EnumImagePixelFormat := IPF_RGB_888 | IPF_GRAYSCALED.

(** A uint8 numpy array: [mat.shape] and [mat.tobytes()]. *)
Record Mat := { shape : list nat; tobytes : list Byte.byte }.

(** [ImageData(bytes, width, height, stride, pixel_format)] *)
Record ImageData := {
  img_bytes : list Byte.byte;
  img_width : nat;
  img_height : nat;
  img_stride : nat;
  img_format : EnumImagePixelFormat
}.

(** [def convertMat2ImageData(mat)]; [height, width = mat.shape] raises
    [ValueError] when the shape does not have two entries. *)
Definition convertMat2ImageData (mat : Mat) : res ImageData :=
  let fmt_dims :=
    if Nat.eqb (List.length (shape mat)) 3 then
      match shape mat with
      | [height; width; channels] => Ok (height, width, channels, IPF_RGB_888)
      | _ => Raise (PyError "ValueError" "unpack")
      end
    else
      match shape mat with
      | [height; width] => Ok (height, width, 1, IPF_GRAYSCALED)
      | _ => Raise (PyError "ValueError" "unpack")
      end in
  let! d := fmt_dims in
  let '(height, width, channels, pixel_format) := d in
  let stride := width * channels in
  Ok {| img_bytes := tobytes mat; img_width := width; img_height := height;
        img_stride := stride; img_format := pixel_format |}.

(** A C-contiguous uint8 array holds one byte per element. *)
Definition well_formed (mat : Mat) : Prop :=
  List.length (tobytes mat) = fold_right Nat.mul 1 (shape mat).

End ImageConv.

(** ** The [MrzScanner] entry points that build an [ImageData] *)
Module Scanner.
Import Results ImageConv.

Section Entry.
(** [self.cvr_instance.capture(input, 'ReadPassportAndId')] *)
Variable capture : ImageData -> CapturedResult.

(** [def decodeBytes(self, bytes, width, height, stride, pixel_format)] *)
Definition decodeBytes (bytes : list Byte.byte) (width height stride : nat)
    (pixel_format : EnumImagePixelFormat) : list (Z * string) * res (list MrzResult) :=
  let imagedata := {| img_bytes := bytes; img_width := width; img_height := height;
                      img_stride := stride; img_format := pixel_format |} in
  decode (capture imagedata).

(** [def decodeMat(self, mat): return self.decode(convertMat2ImageData(mat))];
    a [ValueError] of the conversion propagates before anything is printed. *)
Definition decodeMat (mat : Mat) : list (Z * string) * res (list MrzResult) :=
  match convertMat2ImageData mat with
  | Raise e => ([], Raise e)
  | Ok imagedata => decode (capture imagedata)
  end.

End Entry.
End Scanner.

(** * Proofs *)

Module ClassifierProofs.
Import Classifier.

(** One guarded [try] block is the spec's single-checker decision. *)
Lemma guarded_matches {L F} (mk : L -> res (code_checker F)) tag lines rest :
  guarded mk tag lines rest =
  match matches mk lines with
  | Some f => Ok (Matched tag f)
  | None => rest
  end.
Proof.
  unfold guarded, try_block, matches, try_except, res_bind.
  destruct (mk lines) as [c|e]; [|reflexivity].
  destruct (checker_bool c) as [[|]|e]; [|reflexivity|reflexivity].
  destruct (checker_fields c); reflexivity.
Qed.

Lemma check_first_match_eq {L F} (t1 t2 t3 t4 t5 : L -> res (code_checker F)) lines :
  check t1 t2 t3 t4 t5 lines =
  Ok (first_match [(TD1, t1); (TD2, t2); (TD3, t3); (MRVA, t4); (MRVB, t5)] lines).
Proof.
  unfold check. rewrite !guarded_matches. simpl.
  destruct (matches t1 lines); [reflexivity|].
  destruct (matches t2 lines); [reflexivity|].
  destruct (matches t3 lines); [reflexivity|].
  destruct (matches t4 lines); [reflexivity|].
  destruct (matches t5 lines); reflexivity.
Qed.

Lemma first_match_stops {L F} (pre post post' : list (doc_tag * (L -> res (code_checker F))))
    tag mk lines f :
  matches mk lines = Some f ->
  first_match (pre ++ (tag, mk) :: post) lines = first_match (pre ++ (tag, mk) :: post') lines.
Proof.
  intros Hm. induction pre as [|[t m] pre IH]; simpl.
  - rewrite Hm. reflexivity.
  - destruct (matches m lines); [reflexivity|exact IH].
Qed.

Lemma raises_no_match {L F} (mk : L -> res (code_checker F)) lines :
  raises mk lines -> matches mk lines = None.
Proof.
  intros [e [H|[c [Hc [Hb|[Hb Hf]]]]]]; unfold matches.
  - rewrite H. reflexivity.
  - rewrite Hc, Hb. reflexivity.
  - rewrite Hc, Hb, Hf. reflexivity.
Qed.

(** C1: [check] tries TD1, TD2, TD3, MRVA, MRVB in this order and returns the
    first match (tag and fields), or the no-match result when all reject;
    once a checker matches, whatever the later checkers would do is not
    consulted. *)
Theorem check_priority_order {L F} (t1 t2 t3 t4 t5 : L -> res (code_checker F)) (lines : L) :
  check t1 t2 t3 t4 t5 lines =
    Ok (first_match [(TD1, t1); (TD2, t2); (TD3, t3); (MRVA, t4); (MRVB, t5)] lines) /\
  (forall (pre post post' : list (doc_tag * (L -> res (code_checker F)))) tag mk f,
     matches mk lines = Some f ->
     first_match (pre ++ (tag, mk) :: post) lines =
     first_match (pre ++ (tag, mk) :: post') lines).
Proof.
  split.
  - apply check_first_match_eq.
  - intros pre post post' tag mk f Hm. eapply first_match_stops; exact Hm.
Qed.

(** C2: [check] never raises; a checker that raises (in its constructor,
    [bool] or [fields()]) is caught and control passes to the next checker;
    when every checker rejects or raises, the result is the no-match
    string. *)
Theorem check_never_raises {L F} (t1 t2 t3 t4 t5 : L -> res (code_checker F)) (lines : L) :
  (forall e, check t1 t2 t3 t4 t5 lines <> Raise e) /\
  (forall (mk : L -> res (code_checker F)) tag rest,
     raises mk lines -> guarded mk tag lines rest = rest) /\
  (matches t1 lines = None -> matches t2 lines = None -> matches t3 lines = None ->
   matches t4 lines = None -> matches t5 lines = None ->
   check t1 t2 t3 t4 t5 lines = Ok NoMatch).
Proof.
  split; [|split].
  - intros e. rewrite check_first_match_eq. discriminate.
  - intros mk tag rest Hr. rewrite guarded_matches, (raises_no_match _ _ Hr). reflexivity.
  - intros H1 H2 H3 H4 H5. rewrite check_first_match_eq. simpl.
    rewrite H1, H2, H3, H4, H5. reflexivity.
Qed.

End ClassifierProofs.

Module PipelineProofs.
Import Pipeline.

Lemma drain_length recog ready i tasks lg :
  List.length (fst (drain recog ready i tasks lg)) <= List.length tasks.
Proof.
  revert lg. induction tasks as [|t rest IH]; intros lg; simpl; [lia|].
  destruct (ready i t); simpl; [specialize (IH (lg ++ task_events recog t)%list); lia | lia].
Qed.

Lemma run_bound bound recog ready n :
  List.length (mrzTasks (run bound recog ready n)) <= bound.
Proof.
  induction n as [|n IH]; simpl; [lia|].
  unfold iteration.
  pose proof (drain_length recog ready n (mrzTasks (run bound recog ready n))
                (log (run bound recog ready n))) as Hd.
  destruct (drain recog ready n _ _) as [tasks lg] eqn:E. simpl in Hd.
  unfold submit. destruct (Nat.ltb (List.length tasks) bound) eqn:Hlt; simpl.
  - apply Nat.ltb_lt in Hlt. rewrite length_app. simpl. lia.
  - lia.
Qed.

Lemma drain_none_ready recog i tasks lg :
  drain recog (fun _ _ => false) i tasks lg = (tasks, lg).
Proof. destruct tasks; reflexivity. Qed.

Lemma run_stalled recog n :
  run threadn recog (fun _ _ => false) (S n) =
  {| mrzTasks := [0]; log := Submitted 0 :: map Dropped (seq 1 n) |}.
Proof.
  induction n as [|n IH]; [reflexivity|].
  change (run threadn recog (fun _ _ => false) (S (S n)))
    with (iteration threadn recog (fun _ _ => false) (S n)
            (run threadn recog (fun _ _ => false) (S n))).
  assert (Hs : map Dropped (seq 1 (S n)) = map Dropped (seq 1 n) ++ [Dropped (S n)]).
  { rewrite seq_S, map_app. reflexivity. }
  rewrite Hs, IH. unfold iteration. simpl mrzTasks. simpl log.
  rewrite drain_none_ready. reflexivity.
Qed.

(** C4: the pending-task deque never holds more than the bound, for every
    bound, recognizer and completion schedule; with the default bound
    [threadn = 1] and a recognizer that never completes, [S n] captured
    frames give exactly one submitted frame (frame 0), [n] dropped frames
    and a deque of length one. *)
Theorem pipeline_inflight_bounded :
  (forall bound recog ready n,
     List.length (mrzTasks (run bound recog ready n)) <= bound) /\
  (forall recog n,
     let st := run threadn recog (fun _ _ => false) (S n) in
     mrzTasks st = [0] /\
     submitted_frames (log st) = [0] /\
     dropped_frames (log st) = seq 1 n).
Proof.
  split.
  - apply run_bound.
  - intros recog n. cbv zeta. rewrite run_stalled. simpl.
    split; [reflexivity|]. split.
    + unfold submitted_frames. simpl. f_equal.
      induction (seq 1 n); simpl; [reflexivity|exact IHl].
    + unfold dropped_frames. simpl.
      induction (seq 1 n) as [|x l IHl]; simpl; [reflexivity|]. f_equal. exact IHl.
Qed.

Lemma task_events_schedule recog t : schedule (task_events recog t) = [].
Proof.
  unfold task_events, schedule. destruct (recog t) as [err|texts]; simpl; reflexivity.
Qed.

Lemma drain_recog_indep recog recog' ready i tasks lg lg' :
  fst (drain recog ready i tasks lg) = fst (drain recog' ready i tasks lg') /\
  schedule (snd (drain recog ready i tasks lg)) = schedule lg.
Proof.
  revert lg lg'. induction tasks as [|t rest IH]; intros lg lg'; simpl; [auto|].
  destruct (ready i t); simpl; [|auto].
  destruct (IH (lg ++ task_events recog t)%list (lg' ++ task_events recog' t)%list) as [H1 H2].
  split; [exact H1|]. rewrite H2. unfold schedule at 1. rewrite filter_app.
  fold (schedule lg). fold (schedule (task_events recog t)).
  rewrite task_events_schedule, app_nil_r. reflexivity.
Qed.

Lemma run_recog_indep bound recog recog' ready n :
  mrzTasks (run bound recog ready n) = mrzTasks (run bound recog' ready n) /\
  schedule (log (run bound recog ready n)) = schedule (log (run bound recog' ready n)).
Proof.
  induction n as [|n [IHt IHs]]; simpl; [auto|].
  unfold iteration.
  destruct (drain_recog_indep recog recog' ready n (mrzTasks (run bound recog ready n))
              (log (run bound recog ready n)) (log (run bound recog' ready n))) as [Ht Hs].
  destruct (drain_recog_indep recog' recog' ready n (mrzTasks (run bound recog' ready n))
              (log (run bound recog' ready n)) (log (run bound recog' ready n))) as [_ Hs'].
  rewrite <- IHt in Hs' |- *.
  destruct (drain recog ready n _ _) as [tk lg] eqn:E1.
  destruct (drain recog' ready n _ _) as [tk' lg'] eqn:E2.
  simpl in Ht, Hs, Hs'. subst tk'.
  unfold submit. destruct (Nat.ltb _ bound); simpl; split; try reflexivity;
    unfold schedule; rewrite !filter_app; fold (schedule lg) (schedule lg');
    rewrite Hs, Hs', IHs; reflexivity.
Qed.

Lemma run_prompt recog n :
  mrzTasks (run threadn recog prompt (S n)) = [n] /\
  submitted_frames (log (run threadn recog prompt (S n))) = seq 0 (S n).
Proof.
  induction n as [|n [IHt IHs]]; [split; reflexivity|].
  change (run threadn recog prompt (S (S n)))
    with (iteration threadn recog prompt (S n) (run threadn recog prompt (S n))).
  destruct (run threadn recog prompt (S n)) as [tk lg]. cbn [mrzTasks log] in IHt, IHs. subst tk.
  assert (Hr : prompt (S n) n = true) by (apply Nat.ltb_lt; lia).
  rewrite (seq_S (S n)), <- IHs.
  unfold iteration. simpl mrzTasks. simpl log. simpl drain. rewrite Hr.
  unfold submit. simpl. split; [reflexivity|].
  unfold submitted_frames. rewrite !omap_app. rewrite <- app_assoc. f_equal.
  unfold task_events. destruct (recog n) as [err|texts]; simpl; reflexivity.
Qed.

(** C7: a frame whose recognizer call raises yields only the printed
    error, with no classification of its result; the submit/drop decisions
    of the loop do not depend on the recognizer's outcomes at all, so a
    failing frame never stops later frames from being submitted; with a
    pool that finishes each task before the next frame, every captured
    frame is submitted whatever the recognizer raises. *)
Theorem recognizer_failure_not_fatal :
  (forall recog t e, recog t = RecRaise e -> task_events recog t = [PrintedErr e]) /\
  (forall bound recog recog' ready n,
     schedule (log (run bound recog ready n)) = schedule (log (run bound recog' ready n))) /\
  (forall recog n, submitted_frames (log (run threadn recog prompt n)) = seq 0 n).
Proof.
  split; [|split].
  - intros recog t e H. unfold task_events. rewrite H. reflexivity.
  - intros. apply run_recog_indep.
  - intros recog [|n]; [reflexivity|]. apply run_prompt.
Qed.

End PipelineProofs.

Module CorrelationProofs.
Import Correlation.

Lemma store_other k r (ug : unit_groups) h :
  original_image_hash_id r <> h -> store k r ug !! h = ug !! h.
Proof.
  intros Hne. unfold store, ensure_group.
  rewrite lookup_alter_ne by congruence.
  destruct (ug !! original_image_hash_id r); [reflexivity|].
  rewrite lookup_insert_ne by congruence. reflexivity.
Qed.

Lemma store_same k r (ug : unit_groups) :
  store k r ug !! original_image_hash_id r =
  Some (set_slot k r (from_option id new_NeededResultUnit (ug !! original_image_hash_id r))).
Proof.
  unfold store, ensure_group.
  destruct (ug !! original_image_hash_id r) as [g|] eqn:E.
  - rewrite lookup_alter_eq, E. reflexivity.
  - rewrite lookup_alter_eq, lookup_insert_eq. reflexivity.
Qed.

Lemma receive_accepted k r info (ug : unit_groups) :
  receive k r info ug = if accepted k info then store k r ug else ug.
Proof. destruct k; reflexivity. Qed.

Lemma receive_other k r info (ug : unit_groups) h :
  original_image_hash_id r <> h -> receive k r info ug !! h = ug !! h.
Proof.
  intros Hne. rewrite receive_accepted.
  destruct (accepted k info); [apply store_other, Hne|reflexivity].
Qed.

Lemma slot_set_slot k k' r g :
  slot k' (set_slot k r g) = if kind_eqb k' k then Some r else slot k' g.
Proof. destruct k, k'; reflexivity. Qed.

Lemma slot_new k : slot k new_NeededResultUnit = None.
Proof. destruct k; reflexivity. Qed.

Lemma receive_agree k r info (ug1 ug2 : unit_groups) h :
  ug1 !! h = ug2 !! h ->
  receive k r info ug1 !! h = receive k r info ug2 !! h.
Proof.
  intros E. rewrite !receive_accepted. destruct (accepted k info); [|exact E].
  destruct (String.eqb_spec (original_image_hash_id r) h) as [<-|Hne].
  - rewrite !store_same, E. reflexivity.
  - rewrite !store_other by exact Hne. exact E.
Qed.

Lemma fold_arrivals_agree h arrivals (ug1 ug2 : unit_groups) :
  ug1 !! h = ug2 !! h ->
  fold_left arrive arrivals ug1 !! h =
  fold_left arrive (List.filter (for_hash h) arrivals) ug2 !! h.
Proof.
  revert ug1 ug2. induction arrivals as [|[[k r] info] arrivals IH]; intros ug1 ug2 E;
    [exact E|].
  cbn [List.filter fold_left]. unfold for_hash at 1.
  destruct (String.eqb_spec (original_image_hash_id r) h) as [Heq|Hne].
  - apply IH. apply receive_agree, E.
  - apply IH. cbn [arrive]. rewrite receive_other by exact Hne. exact E.
Qed.

Lemma fold_arrivals_agree2 h arrivals1 arrivals2 (ug1 ug2 : unit_groups) :
  ug1 !! h = ug2 !! h ->
  List.filter (for_hash h) arrivals1 = List.filter (for_hash h) arrivals2 ->
  fold_left arrive arrivals1 ug1 !! h = fold_left arrive arrivals2 ug2 !! h.
Proof.
  intros E F.
  rewrite (fold_arrivals_agree h arrivals1 ug1 ug2 E), F.
  symmetry. apply fold_arrivals_agree. reflexivity.
Qed.

(** C5: recording an artifact under one hash never changes what a portrait
    query for another hash returns; over whole runs, the query for a hash
    depends only on the artifacts recorded under that hash: two runs whose
    stores start with the same bundle for [h] and whose arrivals under [h]
    are the same (in the same order) give the same answer for [h], whatever
    they record under other hashes. *)
Theorem correlation_isolation :
  (forall (fpz : portrait_finder) (ug : unit_groups) k r info h,
     original_image_hash_id r <> h ->
     get_portrait_zone fpz (receive k r info ug) h = get_portrait_zone fpz ug h) /\
  (forall (fpz : portrait_finder) (ug1 ug2 : unit_groups) arrivals1 arrivals2 h,
     ug1 !! h = ug2 !! h ->
     List.filter (for_hash h) arrivals1 = List.filter (for_hash h) arrivals2 ->
     get_portrait_zone fpz (fold_left arrive arrivals1 ug1) h =
     get_portrait_zone fpz (fold_left arrive arrivals2 ug2) h).
Proof.
  split.
  - intros fpz ug k r info h Hne. unfold get_portrait_zone.
    rewrite receive_other by exact Hne. reflexivity.
  - intros fpz ug1 ug2 arrivals1 arrivals2 h E F. unfold get_portrait_zone.
    rewrite (fold_arrivals_agree2 h arrivals1 arrivals2 ug1 ug2 E F). reflexivity.
Qed.

(** C6 (counterexample): a finder that needs only the scaled colour image
    (the SDK's [find_portrait_zone] is outside this repository) answers for
    a bundle that holds that one artifact; [get_portrait_zone] does not check
    that the five artifacts have arrived, so it returns a zone. *)
Lemma portrait_zone_partial_bundle :
  let r := {| original_image_hash_id := "h"; unit_data := 1 |} in
  let ug := on_scaled_colour_image_unit_received r {| is_section_level_result := true |} ∅ in
  let q := {| points := [{| px := 0; py := 0 |}; {| px := 10; py := 0 |};
                         {| px := 10; py := 10 |}; {| px := 0; py := 10 |}] |} in
  let fpz : portrait_finder := fun scaled _ _ _ _ =>
    match scaled with Some _ => (EC_OK, Some q) | None => (-1, None) end%Z in
  (exists g, ug !! "h" = Some g /\ slot Deskewed g = None /\ ~ complete g) /\
  get_portrait_zone fpz ug "h" = Some q.
Proof.
  cbv zeta. split.
  - eexists. split; [reflexivity|]. split; [reflexivity|].
    intros Hc. apply (Hc Deskewed). reflexivity.
  - reflexivity.
Qed.

(** C6 (amended): with no bundle for the hash the query returns [None];
    with a bundle, complete or not, the code itself checks nothing: it hands
    the five slots (absent ones as [None]) to the SDK's [find_portrait_zone]
    and returns a zone exactly when that call reports [EC_OK] with one. *)
Theorem portrait_zone_delegates (fpz : portrait_finder) (ug : unit_groups) (h : string) :
  (ug !! h = None -> get_portrait_zone fpz ug h = None) /\
  (forall g z, ug !! h = Some g ->
     (get_portrait_zone fpz ug h = Some z <->
      fpz (slot Scaled g) (slot Localized g) (slot Recognized g)
          (slot Quads g) (slot Deskewed g) = (EC_OK, Some z))).
Proof.
  split.
  - intros E. unfold get_portrait_zone. rewrite E. reflexivity.
  - intros g z E. unfold get_portrait_zone. rewrite E. simpl.
    destruct (fpz _ _ _ _ _) as [ret pz]. unfold EC_OK.
    destruct (Z.eqb_spec ret 0) as [->|Hne]; split.
    + intros ->. reflexivity.
    + intros H. injection H as ->. reflexivity.
    + discriminate.
    + intros H. injection H as Hr _. contradiction.
Qed.

(** C8 (counterexample): a deskewed image that is not a section-level
    result arrives first for hash "h": no bundle is created. *)
Lemma deskewed_not_section_level_ignored :
  receive Deskewed {| original_image_hash_id := "h"; unit_data := 1 |}
    {| is_section_level_result := false |} ∅ !! "h" = None.
Proof. reflexivity. Qed.

(** C8 (amended): a callback that takes its artifact (scaled colour image
    always, the other four kinds when [is_section_level_result]) creates the
    bundle of the artifact's hash if absent and sets only the slot of its
    kind, the other slots keeping what was recorded before; a callback that
    does not take it leaves the store unchanged; bundles of other hashes are
    never touched. *)
Theorem record_merges k r info (ug : unit_groups) :
  let h := original_image_hash_id r in
  (accepted k info = false -> receive k r info ug = ug) /\
  (accepted k info = true -> exists g,
     receive k r info ug !! h = Some g /\
     forall k', slot k' g =
       if kind_eqb k' k then Some r
       else match ug !! h with Some g0 => slot k' g0 | None => None end) /\
  (forall h', h' <> h -> receive k r info ug !! h' = ug !! h').
Proof.
  cbv zeta. split; [|split].
  - intros Ha. rewrite receive_accepted, Ha. reflexivity.
  - intros Ha. rewrite receive_accepted, Ha.
    eexists. split; [apply store_same|].
    intros k'. rewrite slot_set_slot.
    destruct (kind_eqb k' k); [reflexivity|].
    destruct (ug !! original_image_hash_id r); [reflexivity|apply slot_new].
  - intros h' Hne. apply receive_other. congruence.
Qed.

End CorrelationProofs.

Module ResultsProofs.
Import Results.

Lemma field_if_valid_failed item name :
  get_field_validation_status item name = VS_FAILED -> field_if_valid item name = None.
Proof.
  intros Hs. unfold field_if_valid. rewrite Hs.
  destruct (get_field_value item name); reflexivity.
Qed.

Lemma field_if_valid_some item name v :
  field_if_valid item name = Some v ->
  get_field_value item name = Some v /\ get_field_validation_status item name <> VS_FAILED.
Proof.
  unfold field_if_valid. destruct (get_field_value item name) as [w|]; [|discriminate].
  destruct (get_field_validation_status item name) eqn:Hs; simpl; try discriminate;
    intros H; injection H as ->; split; congruence.
Qed.

Lemma doc_id_of_some item v :
  doc_id_of item = Some v -> exists name,
    (name = "passportNumber" \/ name = "documentNumber") /\
    get_field_value item name = Some v /\
    get_field_validation_status item name <> VS_FAILED.
Proof.
  unfold doc_id_of. destruct (String.eqb _ _); [|discriminate].
  destruct (field_if_valid item "passportNumber") as [w|] eqn:Ep.
  - intros H. injection H as <-. exists "passportNumber". split; [left; reflexivity|].
    apply field_if_valid_some, Ep.
  - intros H. exists "documentNumber". split; [right; reflexivity|].
    apply field_if_valid_some, H.
Qed.

Lemma raw_line_failed suffix item name line :
  get_field_value item name = Some line ->
  get_field_validation_status item name = VS_FAILED ->
  raw_line suffix item name = [String.append line suffix].
Proof. intros Hv Hs. unfold raw_line. rewrite Hv, Hs. reflexivity. Qed.

Lemma named_dropped item (named : list (string * option string)) :
  Forall (fun nv => snd nv = field_if_valid item (fst nv)) named ->
  forall name v, In (name, v) named ->
    get_field_validation_status item name = VS_FAILED -> v = None.
Proof.
  intros Hall name v Hin Hs. rewrite List.Forall_forall in Hall.
  specialize (Hall (name, v) Hin). simpl in Hall. rewrite Hall.
  apply field_if_valid_failed, Hs.
Qed.

Lemma lines_surface suffix item :
  failed_lines_surface suffix item
    (raw_line suffix item "line1" ++ raw_line suffix item "line2" ++ raw_line suffix item "line3").
Proof.
  intros name line Hin Hv Hs.
  destruct Hin as [<-|[<-|[<-|[]]]]; rewrite (raw_line_failed suffix _ _ line Hv Hs);
    apply in_or_app.
  - left. left. reflexivity.
  - right. apply in_or_app. left. left. reflexivity.
  - right. apply in_or_app. right. left. reflexivity.
Qed.

(** C3 (counterexample): a parsed item whose only field is a FAILED
    nationality "UTO": both constructors leave [nationality] [None] and
    have no raw line, so the value appears nowhere in the result. *)
Lemma failed_nationality_dropped :
  let item := {| get_code_type := "MRTD_TD3_PASSPORT";
                 get_field_value := fun n => if String.eqb n "nationality" then Some "UTO" else None;
                 get_field_validation_status := fun _ => VS_FAILED |} in
  let p := {| px := 0; py := 0 |} in
  (exists r, mk_MrzResult item [p; p; p; p] = Ok r /\
     nationality r = None /\ raw_text r = []) /\
  dcp_nationality (mk_DCPResultProcessor item) = None /\
  dcp_raw_text (mk_DCPResultProcessor item) = [].
Proof.
  cbv zeta. split; [|split; reflexivity].
  eexists. split; [reflexivity|]. split; reflexivity.
Qed.

(** C3 (amended): only the MRZ lines surface a FAILED value: a FAILED
    [line1]..[line3] stays in the raw text with ", Validation Failed"
    ([MrzResult]) or " [Validation Failed]" ([DCPResultProcessor]) appended;
    every other named field with status FAILED is left [None], and
    [doc_id] never takes a FAILED passport or document number. *)
Theorem failed_fields_handling item p1 p2 p3 p4 :
  (exists r, mk_MrzResult item [p1; p2; p3; p4] = Ok r /\
     failed_lines_surface ", Validation Failed" item (raw_text r) /\
     failed_fields_dropped item (mrz_named_fields r) (doc_id r)) /\
  (let d := mk_DCPResultProcessor item in
     failed_lines_surface " [Validation Failed]" item (dcp_raw_text d) /\
     failed_fields_dropped item (dcp_named_fields d) (dcp_doc_id d)).
Proof.
  split.
  - eexists. split; [reflexivity|]. simpl. split; [apply lines_surface|].
    split; [|apply doc_id_of_some].
    apply named_dropped. repeat constructor.
  - cbv zeta. simpl. split.
    + pose proof (lines_surface " [Validation Failed]" item) as H.
      rewrite app_nil_r. exact H.
    + split; [|apply doc_id_of_some].
      apply named_dropped. repeat constructor.
Qed.

(** C9: when the item's code type is not "MRTD_TD3_PASSPORT", [doc_id]
    stays [None] in both constructors, whatever passport or document number
    the item carries. *)
Theorem doc_id_only_td3 item p1 p2 p3 p4 :
  get_code_type item <> "MRTD_TD3_PASSPORT" ->
  (exists r, mk_MrzResult item [p1; p2; p3; p4] = Ok r /\ doc_id r = None) /\
  dcp_doc_id (mk_DCPResultProcessor item) = None.
Proof.
  intros Hne.
  assert (Hd : doc_id_of item = None).
  { unfold doc_id_of. destruct (String.eqb_spec (get_code_type item) "MRTD_TD3_PASSPORT");
      [contradiction|reflexivity]. }
  split; [|exact Hd].
  eexists. split; [reflexivity|]. exact Hd.
Qed.

Lemma doc_id_only_td3_witness :
  let item := {| get_code_type := "MRTD_TD1_ID";
                 get_field_value := fun n =>
                   if String.eqb n "passportNumber" then Some "L898902C3"
                   else if String.eqb n "documentNumber" then Some "L898902C3" else None;
                 get_field_validation_status := fun _ => VS_SUCCEEDED |} in
  let p := {| px := 0; py := 0 |} in
  get_code_type item <> "MRTD_TD3_PASSPORT" /\
  field_if_valid item "passportNumber" = Some "L898902C3" /\
  ((exists r, mk_MrzResult item [p; p; p; p] = Ok r /\ doc_id r = None) /\
   dcp_doc_id (mk_DCPResultProcessor item) = None).
Proof.
  cbv zeta. split; [discriminate|]. split; [reflexivity|].
  apply doc_id_only_td3. discriminate.
Defined.

(** C10 (code bug): a capture with a non-OK error code prints the code and
    message and returns [[]]; but a successful capture with a recognized text
    line and no parsed result makes [decode] index the empty [parsed_items]
    and raise [IndexError] instead of returning one result per line item. *)
Theorem decode_unparsed_line_raises :
  (forall cr, get_error_code cr <> EC_OK ->
     decode cr = ([(get_error_code cr, get_error_string cr)], Ok [])) /\
  decode {| get_error_code := EC_OK; get_error_string := "Successful.";
            get_recognized_text_lines_result :=
              Some [{| get_location := [{| px := 0; py := 0 |}; {| px := 10; py := 0 |};
                                        {| px := 10; py := 10 |}; {| px := 0; py := 10 |}] |}];
            get_parsed_result := None |} =
  ([], Raise (IndexError "list index out of range")).
Proof.
  split; [|reflexivity].
  intros cr Hne. unfold decode.
  destruct (Z.eqb_spec (get_error_code cr) EC_OK); [contradiction|reflexivity].
Qed.

End ResultsProofs.

Module ResultsExtra.
Import Results.

Lemma mk_MrzResult_ok item (loc : list Point) :
  4 <= List.length loc -> exists r, mk_MrzResult item loc = Ok r.
Proof.
  intros H. destruct loc as [|a [|b [|c [|d l]]]]; simpl in H; try lia.
  eexists. reflexivity.
Qed.

Lemma build_output_ok (parsed : list ParsedResultItem) (items : list TextLineItem) :
  forall i out,
  Forall (fun it => 4 <= List.length (get_location it)) items ->
  i + List.length items <= List.length parsed ->
  exists outs, build_output parsed i items out = Ok (out ++ outs) /\
    List.length outs = List.length items /\
    forall j it, nth_error items j = Some it -> exists p r,
      nth_error parsed (i + j) = Some p /\
      mk_MrzResult p (get_location it) = Ok r /\ nth_error outs j = Some r.
Proof.
  induction items as [|it rest IH]; intros i out Hf Hlen.
  - exists []. rewrite app_nil_r. split; [reflexivity|]. split; [reflexivity|].
    intros j it Hj. destruct j; discriminate.
  - inversion Hf as [|? ? Hit Hrest]; subst. simpl in Hlen.
    destruct (nth_error parsed i) as [p|] eqn:Ep.
    2:{ apply nth_error_None in Ep. lia. }
    destruct (mk_MrzResult_ok p (get_location it) Hit) as [r Hr].
    assert (Hl' : S i + List.length rest <= List.length parsed) by (simpl in *; lia).
    destruct (IH (S i) (out ++ [r]) Hrest Hl') as [outs [Hb [Hl Hn]]].
    exists (r :: outs). simpl. unfold py_index. rewrite Ep. simpl. rewrite Hr. simpl.
    rewrite Hb, <- app_assoc. split; [reflexivity|]. split; [simpl; lia|].
    intros [|j] it' Hj; simpl in Hj.
    + injection Hj as <-. exists p, r. rewrite Nat.add_0_r. auto.
    + destruct (Hn j it' Hj) as [p' [r' [H1 [H2 H3]]]]. exists p', r'.
      rewrite Nat.add_succ_r. auto.
Qed.

Lemma build_output_raise (parsed : list ParsedResultItem) (items : list TextLineItem) :
  forall i out,
  Forall (fun it => 4 <= List.length (get_location it)) items ->
  i <= List.length parsed ->
  List.length parsed < i + List.length items ->
  build_output parsed i items out = Raise (IndexError "list index out of range").
Proof.
  induction items as [|it rest IH]; intros i out Hf Hi Hlen; simpl in Hlen; [lia|].
  inversion Hf as [|? ? Hit Hrest]; subst. simpl. unfold py_index.
  destruct (nth_error parsed i) as [p|] eqn:Ep; [|reflexivity].
  assert (i < List.length parsed) by (apply nth_error_Some; congruence).
  simpl. destruct (mk_MrzResult_ok p (get_location it) Hit) as [r Hr]. rewrite Hr. simpl.
  apply IH; [exact Hrest|lia|lia].
Qed.

Lemma decode_ok_eq cr :
  get_error_code cr = EC_OK ->
  decode cr = ([], build_output (parsed_items_of cr) 0 (line_items_of cr) []).
Proof. intros H. unfold decode. rewrite H. reflexivity. Qed.

(** [decode] on a successful capture whose line items carry four-point
    locations and whose parsed result has at least as many items returns one
    [MrzResult] per line item, the [j]-th built from the [j]-th parsed item
    and the [j]-th line location; surplus parsed items are ignored. *)
Theorem decode_one_result_per_line (cr : CapturedResult) :
  get_error_code cr = EC_OK ->
  Forall (fun it => 4 <= List.length (get_location it)) (line_items_of cr) ->
  List.length (line_items_of cr) <= List.length (parsed_items_of cr) ->
  exists out, decode cr = ([], Ok out) /\
    List.length out = List.length (line_items_of cr) /\
    forall j it, nth_error (line_items_of cr) j = Some it -> exists p r,
      nth_error (parsed_items_of cr) j = Some p /\
      mk_MrzResult p (get_location it) = Ok r /\ nth_error out j = Some r.
Proof.
  intros Hc Hf Hl. rewrite (decode_ok_eq cr Hc).
  destruct (build_output_ok (parsed_items_of cr) (line_items_of cr) 0 [] Hf ltac:(lia))
    as [outs [Hb [Hlen Hn]]].
  exists outs. rewrite Hb. split; [reflexivity|]. split; [exact Hlen|]. exact Hn.
Qed.

Lemma decode_one_result_per_line_witness :
  let it := {| get_location := [{| px := 0; py := 0 |}; {| px := 9; py := 0 |};
                                {| px := 9; py := 2 |}; {| px := 0; py := 2 |}] |} in
  let item := {| get_code_type := "MRTD_TD3_PASSPORT"; get_field_value := fun _ => None;
                 get_field_validation_status := fun _ => VS_NONE |} in
  let cr := {| get_error_code := EC_OK; get_error_string := "Successful.";
               get_recognized_text_lines_result := Some [it];
               get_parsed_result := Some [item; item] |} in
  get_error_code cr = EC_OK /\
  Forall (fun it => 4 <= List.length (get_location it)) (line_items_of cr) /\
  List.length (line_items_of cr) <= List.length (parsed_items_of cr) /\
  exists out, decode cr = ([], Ok out) /\
    List.length out = List.length (line_items_of cr) /\
    forall j it, nth_error (line_items_of cr) j = Some it -> exists p r,
      nth_error (parsed_items_of cr) j = Some p /\
      mk_MrzResult p (get_location it) = Ok r /\ nth_error out j = Some r.
Proof.
  cbv zeta. split; [reflexivity|]. split; [repeat constructor; simpl; lia|].
  split; [simpl; lia|].
  apply decode_one_result_per_line; [reflexivity|repeat constructor; simpl; lia|simpl; lia].
Defined.

(** On a successful capture whose line items carry four-point locations,
    [decode] raises [IndexError] exactly when the parsed result has fewer
    items than there are recognized line items (a missing parsed result
    counts as none). *)
Theorem decode_raises_iff_fewer_parsed (cr : CapturedResult) :
  get_error_code cr = EC_OK ->
  Forall (fun it => 4 <= List.length (get_location it)) (line_items_of cr) ->
  (snd (decode cr) = Raise (IndexError "list index out of range") <->
   List.length (parsed_items_of cr) < List.length (line_items_of cr)).
Proof.
  intros Hc Hf. rewrite (decode_ok_eq cr Hc). simpl. split.
  - intros H. destruct (Nat.lt_ge_cases (List.length (parsed_items_of cr))
                          (List.length (line_items_of cr))) as [Hlt|Hge]; [exact Hlt|].
    destruct (build_output_ok (parsed_items_of cr) (line_items_of cr) 0 [] Hf ltac:(lia))
      as [outs [Hb _]]. rewrite Hb in H. discriminate.
  - intros Hlt. apply build_output_raise; [exact Hf|lia|lia].
Qed.

Lemma decode_raises_iff_fewer_parsed_witness :
  let it := {| get_location := [{| px := 0; py := 0 |}; {| px := 9; py := 0 |};
                                {| px := 9; py := 2 |}; {| px := 0; py := 2 |}] |} in
  let cr := {| get_error_code := EC_OK; get_error_string := "Successful.";
               get_recognized_text_lines_result := Some [it; it];
               get_parsed_result := Some [] |} in
  get_error_code cr = EC_OK /\
  Forall (fun it => 4 <= List.length (get_location it)) (line_items_of cr) /\
  (snd (decode cr) = Raise (IndexError "list index out of range") <->
   List.length (parsed_items_of cr) < List.length (line_items_of cr)).
Proof.
  cbv zeta. split; [reflexivity|]. split; [repeat constructor; simpl; lia|].
  apply decode_raises_iff_fewer_parsed; [reflexivity|repeat constructor; simpl; lia].
Defined.

(** The asynchronous receiver [on_captured_result_received] hands its
    listener exactly the list [decode] returns for the same successful
    capture, and calls the listener not at all (raising the same exception)
    where [decode] raises. *)
Theorem receiver_delivers_decode (cr : CapturedResult) :
  get_error_code cr = EC_OK ->
  (forall out, snd (decode cr) = Ok out <-> fst (on_captured_result_received cr) = [out]) /\
  (forall e, snd (decode cr) = Raise e <-> on_captured_result_received cr = ([], Raise e)).
Proof.
  intros Hc. rewrite (decode_ok_eq cr Hc). simpl.
  unfold on_captured_result_received, parsed_items_of, line_items_of.
  destruct (build_output _ 0 _ []) as [o|e0]; simpl; split; intros; split; intros H;
    congruence.
Qed.

Lemma receiver_delivers_decode_witness :
  let cr := {| get_error_code := EC_OK; get_error_string := "Successful.";
               get_recognized_text_lines_result := None;
               get_parsed_result := None |} in
  get_error_code cr = EC_OK /\
  ((forall out, snd (decode cr) = Ok out <-> fst (on_captured_result_received cr) = [out]) /\
   (forall e, snd (decode cr) = Raise e <-> on_captured_result_received cr = ([], Raise e))).
Proof.
  cbv zeta. split; [reflexivity|]. apply receiver_delivers_decode. reflexivity.
Defined.

End ResultsExtra.

Module GuiProofs.
Import Results Gui.

Lemma raw_line_length s1 s2 item name :
  List.length (raw_line s1 item name) = List.length (raw_line s2 item name).
Proof. unfold raw_line. destruct (get_field_value item name); reflexivity. Qed.

Lemma raw_line_not_failed s1 s2 item name :
  get_field_validation_status item name <> VS_FAILED ->
  raw_line s1 item name = raw_line s2 item name.
Proof.
  intros Hs. unfold raw_line. destruct (get_field_value item name); [|reflexivity].
  destruct (get_field_validation_status item name); [reflexivity|reflexivity|contradiction].
Qed.

(** [MrzResult] and [DCPResultProcessor] read an item the same way: the
    same code type, [doc_id] and named fields, as many raw lines, and the
    same raw lines when no MRZ line failed validation. In general both
    raw texts come from one list of (line, failed) pairs, one per present
    MRZ line, and differ only in the suffix appended to a failed line. *)
Theorem mrz_dcp_agree item p1 p2 p3 p4 :
  exists r, mk_MrzResult item [p1; p2; p3; p4] = Ok r /\
    doc_type r = dcp_doc_type (mk_DCPResultProcessor item) /\
    doc_id r = dcp_doc_id (mk_DCPResultProcessor item) /\
    map snd (mrz_named_fields r) = map snd (dcp_named_fields (mk_DCPResultProcessor item)) /\
    List.length (raw_text r) = List.length (dcp_raw_text (mk_DCPResultProcessor item)) /\
    ((forall name, In name ["line1"; "line2"; "line3"] ->
        get_field_validation_status item name <> VS_FAILED) ->
     raw_text r = dcp_raw_text (mk_DCPResultProcessor item)) /\
    (exists lines : list (string * bool),
       map fst lines = flat_map (fun name => match get_field_value item name with
                                              | Some l => [l] | None => [] end)
                                ["line1"; "line2"; "line3"] /\
       Forall (fun lf : string * bool => snd lf = true -> exists name, In name ["line1"; "line2"; "line3"] /\
                 get_field_value item name = Some (fst lf) /\
                 get_field_validation_status item name = VS_FAILED) lines /\
       raw_text r = map (fun '((l, f) : string * bool) => if f then String.append l ", Validation Failed" else l) lines /\
       dcp_raw_text (mk_DCPResultProcessor item) =
         map (fun '((l, f) : string * bool) => if f then String.append l " [Validation Failed]" else l) lines).
Proof.
  eexists. split; [reflexivity|]. cbn [raw_text doc_type doc_id mk_DCPResultProcessor
    dcp_doc_type dcp_doc_id dcp_raw_text flat_map].
  rewrite app_nil_r.
  split; [reflexivity|]. split; [reflexivity|]. split; [reflexivity|]. split.
  - rewrite !length_app. rewrite (raw_line_length _ " [Validation Failed]" item "line1"),
      (raw_line_length _ " [Validation Failed]" item "line2"),
      (raw_line_length _ " [Validation Failed]" item "line3"). reflexivity.
  - split.
    + intros H. rewrite (raw_line_not_failed _ " [Validation Failed]" item "line1"),
        (raw_line_not_failed _ " [Validation Failed]" item "line2"),
        (raw_line_not_failed _ " [Validation Failed]" item "line3");
        [reflexivity| apply H; simpl; auto .. ].
    + exists (flat_map (fun name => match get_field_value item name with
                                    | Some l => [(l, is_failed (get_field_validation_status item name))]
                                    | None => [] end) ["line1"; "line2"; "line3"]).
      unfold raw_line. cbn [flat_map]. rewrite !app_nil_r.
      destruct (get_field_value item "line1") as [l1|] eqn:E1,
               (get_field_value item "line2") as [l2|] eqn:E2,
               (get_field_value item "line3") as [l3|] eqn:E3;
        cbn [app map fst snd];
        (split; [reflexivity|]);
        (split; [repeat constructor; cbn [snd fst]; intros Hf;
                 match goal with
                 | |- exists name, _ /\ get_field_value item name = Some ?l /\ _ =>
                     first [ exists "line1"; split; [simpl; auto|]; split; [exact E1|]
                           | exists "line2"; split; [simpl; auto|]; split; [exact E2|]
                           | exists "line3"; split; [simpl; auto|]; split; [exact E3|] ]
                 end;
                 match goal with
                 | |- ?s = VS_FAILED => destruct s; first [reflexivity | discriminate Hf]
                 end|]);
        split; reflexivity.
Qed.

Lemma extract_items fpz irr (result : GuiCapturedResult) :
  extract_mrz_results fpz irr result =
    results_of_items fpz irr (g_hash_id result) (locations_of result)
      (match g_parsed_result result with Some l => l | None => [] end).
Proof.
  unfold extract_mrz_results.
  destruct (g_parsed_result result) as [[|item items]|]; reflexivity.
Qed.

(** [_extract_mrz_results] gives one [MRZResult] per parsed item (none when
    the parsed result is missing or empty), and every result carries the
    locations of all recognized text lines of the capture. *)
Theorem extract_one_per_item fpz irr (result : GuiCapturedResult) :
  List.length (extract_mrz_results fpz irr result) =
    List.length (match g_parsed_result result with Some l => l | None => [] end) /\
  Forall (fun m => mrz_locations m = locations_of result) (extract_mrz_results fpz irr result).
Proof.
  rewrite extract_items. unfold results_of_items. split.
  - rewrite length_map. reflexivity.
  - apply List.Forall_forall. intros m Hm. apply in_map_iff in Hm.
    destruct Hm as [it [<- _]]. reflexivity.
Qed.

(** The camera path [_process_frame] and the file path
    [_extract_mrz_results] produce the same results for the same capture
    (the file path's extra empty-list test changes nothing). *)
Theorem process_frame_eq_extract fpz irr (result : GuiCapturedResult) :
  Gui.process_frame fpz irr (Some result) = extract_mrz_results fpz irr result.
Proof.
  unfold Gui.process_frame, extract_mrz_results.
  destruct (g_parsed_result result) as [[|item items]|]; reflexivity.
Qed.

(** In the extracted results a portrait zone is only ever looked up for a
    TD3 passport with a receiver present; [is_passport] holds exactly for
    code type "MRTD_TD3_PASSPORT", and a non-passport result has an empty
    document id. *)
Theorem extract_portrait_only_passports fpz irr (result : GuiCapturedResult) :
  Forall (fun m =>
    (portrait_zone m <> None -> is_passport m = true /\ irr <> None) /\
    (is_passport m = true <-> r_doc_type m = "MRTD_TD3_PASSPORT") /\
    (is_passport m = false -> r_doc_id m = ""))
    (extract_mrz_results fpz irr result).
Proof.
  apply List.Forall_forall. intros m Hm. rewrite extract_items in Hm.
  unfold results_of_items in Hm. apply in_map_iff in Hm. destruct Hm as [item [<- _]].
  simpl. unfold doc_id_of.
  destruct (String.eqb_spec (get_code_type item) "MRTD_TD3_PASSPORT") as [E|E]; simpl.
  - split; [|split; [split; auto|discriminate]].
    intros Hpz. split; [reflexivity|]. destruct irr; [discriminate|contradiction].
  - split; [|split; [split; [discriminate|contradiction]|reflexivity]].
    intros Hpz. destruct irr; contradiction.
Qed.

End GuiProofs.

Module CameraProofs.
Import Correlation Results Gui CorrelationProofs.

Lemma portrait_zone_agree fpz (ug1 ug2 : unit_groups) h :
  ug1 !! h = ug2 !! h -> get_portrait_zone fpz ug1 h = get_portrait_zone fpz ug2 h.
Proof. intros E. unfold get_portrait_zone. rewrite E. reflexivity. Qed.

Lemma results_agree fpz (ug1 ug2 : unit_groups) hash_id locs items :
  ug1 !! hash_id = ug2 !! hash_id ->
  results_of_items fpz (Some ug1) hash_id locs items =
  results_of_items fpz (Some ug2) hash_id locs items.
Proof.
  intros E. unfold results_of_items.
  apply map_ext. intros item. rewrite (portrait_zone_agree fpz ug1 ug2 _ E). reflexivity.
Qed.

(** The results of a camera frame depend only on the intermediate results
    that carry the frame's own image hash: the groups kept from the
    previous frame (cleared first) and the artifacts of other images that
    arrive during the capture change nothing. *)
Theorem camera_frame_only_own_hash fpz (ug_prev : unit_groups) arrivals
    (result : GuiCapturedResult) :
  snd (camera_frame fpz ug_prev arrivals (Some result)) =
  snd (camera_frame fpz ∅ (List.filter (for_hash (g_hash_id result)) arrivals) (Some result)).
Proof.
  unfold camera_frame. cbn [snd]. unfold Gui.process_frame.
  destruct (g_parsed_result result) as [items|]; [|reflexivity].
  apply results_agree.
  change (fun ug '(k, r, info) => receive k r info ug) with arrive.
  apply fold_arrivals_agree. reflexivity.
Qed.

End CameraProofs.

Module PipelineExtra.
Import Pipeline.

Lemma drain_split recog ready i tasks lg :
  exists C, tasks = C ++ fst (drain recog ready i tasks lg) /\
    snd (drain recog ready i tasks lg) = lg ++ flat_map (task_events recog) C.
Proof.
  revert lg. induction tasks as [|t rest IH]; intros lg; simpl.
  - exists []. simpl. rewrite app_nil_r. split; reflexivity.
  - destruct (ready i t).
    + destruct (IH (lg ++ task_events recog t)) as [C [E1 E2]].
      exists (t :: C). simpl. rewrite <- E1, E2, app_assoc. split; reflexivity.
    + exists []. simpl. rewrite app_nil_r. split; reflexivity.
Qed.

Lemma task_events_submitted recog t :
  submitted_frames (task_events recog t) = [].
Proof.
  unfold task_events. destruct (recog t); simpl; reflexivity.
Qed.

Lemma task_events_checked recog t :
  checked_frames (task_events recog t) = if recog_ok recog t then [t] else [].
Proof.
  unfold task_events, recog_ok. destruct (recog t); simpl; reflexivity.
Qed.

Lemma submitted_frames_app l1 l2 :
  submitted_frames (l1 ++ l2) = submitted_frames l1 ++ submitted_frames l2.
Proof. apply omap_app. Qed.

Lemma checked_frames_app l1 l2 :
  checked_frames (l1 ++ l2) = checked_frames l1 ++ checked_frames l2.
Proof. apply omap_app. Qed.

Lemma flat_map_submitted recog C :
  submitted_frames (flat_map (task_events recog) C) = [].
Proof.
  induction C as [|t C IH]; [reflexivity|]. simpl.
  rewrite submitted_frames_app, IH, app_nil_r. apply task_events_submitted.
Qed.

Lemma flat_map_checked recog C :
  checked_frames (flat_map (task_events recog) C) = List.filter (recog_ok recog) C.
Proof.
  induction C as [|t C IH]; [reflexivity|]. simpl.
  rewrite checked_frames_app, IH, task_events_checked.
  destruct (recog_ok recog t); reflexivity.
Qed.

(** The camera loop handles results first in, first out: the frames
    submitted so far are the frames already taken off the deque followed
    by the deque itself; the frames whose text reached [check] are
    exactly those taken off whose recognizer returned results, in
    submission order; and no frame is submitted twice or out of order. *)
Theorem pipeline_fifo bound recog ready n :
  exists D,
    submitted_frames (log (run bound recog ready n)) = D ++ mrzTasks (run bound recog ready n) /\
    checked_frames (log (run bound recog ready n)) = List.filter (recog_ok recog) D /\
    sublist (submitted_frames (log (run bound recog ready n))) (seq 0 n).
Proof.
  induction n as [|n [D [H1 [H2 H3]]]].
  - exists []. simpl. split; [reflexivity|]. split; [reflexivity|]. apply sublist_nil_l.
  - cbn [run]. unfold iteration.
    destruct (drain_split recog ready n (mrzTasks (run bound recog ready n))
                (log (run bound recog ready n))) as [C [E1 E2]].
    destruct (drain recog ready n (mrzTasks (run bound recog ready n))
                (log (run bound recog ready n))) as [tasks lg] eqn:Ed.
    simpl in E1, E2. subst lg.
    assert (Hseq : seq 0 (S n) = seq 0 n ++ [n]) by (rewrite seq_S; reflexivity).
    unfold submit. destruct (Nat.ltb (List.length tasks) bound); cbn [log mrzTasks];
      exists (D ++ C);
      rewrite !submitted_frames_app, !checked_frames_app, flat_map_submitted,
        flat_map_checked, H1, H2, E1; simpl;
      rewrite ?app_nil_r, List.filter_app;
      change (0 :: seq 1 n) with (seq 0 (S n)); rewrite Hseq.
    + split; [rewrite !app_assoc; reflexivity|]. split; [reflexivity|].
      apply sublist_app; [|apply sublist_skip, sublist_nil_l].
      rewrite <- E1, <- H1. exact H3.
    + split; [rewrite !app_assoc; reflexivity|]. split; [reflexivity|].
      apply sublist_inserts_r. rewrite <- E1, <- H1. exact H3.
Qed.

End PipelineExtra.

Module ImageConvProofs.
Import ImageConv.

(** For a contiguous array, the [ImageData] built by [convertMat2ImageData]
    has exactly [stride * height] bytes, and its pixel format is RGB_888
    exactly when the array has three dimensions, whatever their channel
    count; an array with neither two nor three dimensions raises
    [ValueError] when its shape is unpacked. *)
Theorem convert_layout mat :
  well_formed mat ->
  (forall img, convertMat2ImageData mat = Ok img ->
     List.length (img_bytes img) = img_stride img * img_height img /\
     (img_format img = IPF_RGB_888 <-> List.length (shape mat) = 3)) /\
  (List.length (shape mat) <> 2 -> List.length (shape mat) <> 3 ->
   convertMat2ImageData mat = Raise (PyError "ValueError" "unpack")).
Proof.
  destruct mat as [sh bytes]. unfold well_formed, convertMat2ImageData. cbn [shape tobytes].
  intros Hwf.
  destruct sh as [|h [|w [|c [|d rest]]]]; cbn [List.length Nat.eqb res_bind]; split;
    try (intros img Himg; discriminate Himg); try (intros; reflexivity);
    try (intros H2 H3; exfalso; simpl in *; lia).
  - intros img Himg. injection Himg as <-. cbn. simpl in Hwf. split; [lia|].
    split; discriminate.
  - intros img Himg. injection Himg as <-. cbn. simpl in Hwf. split; [lia|].
    split; reflexivity.
Qed.

(** A 2x3 RGB array of 18 bytes, and an array of four dimensions. *)
Lemma convert_layout_witness :
  let mat := {| shape := [2; 3; 3]; tobytes := repeat Byte.x00 18 |} in
  well_formed mat /\
  (exists img, convertMat2ImageData mat = Ok img /\
     List.length (img_bytes img) = img_stride img * img_height img /\
     img_format img = IPF_RGB_888) /\
  convertMat2ImageData {| shape := [2; 3; 3; 1]; tobytes := repeat Byte.x00 18 |} =
    Raise (PyError "ValueError" "unpack").
Proof.
  cbv zeta. split; [reflexivity|]. split.
  - destruct (convert_layout {| shape := [2; 3; 3]; tobytes := repeat Byte.x00 18 |}
                eq_refl) as [Hok _].
    eexists. split; [reflexivity|].
    destruct (Hok _ eq_refl) as [Hlen Hfmt]. split; [exact Hlen|]. apply Hfmt. reflexivity.
  - apply (convert_layout {| shape := [2; 3; 3; 1]; tobytes := repeat Byte.x00 18 |});
      [reflexivity | simpl; lia | simpl; lia].
Defined.

End ImageConvProofs.

Module ScannerProofs.
Import Results ImageConv Scanner.

(** [decodeMat] hands the array's bytes to the SDK unchanged (no colour
    conversion): an [(h, w, c)] array is decoded as [decodeBytes] with
    stride [w * c] and format RGB_888, an [(h, w)] array with stride [w]
    and format GRAYSCALED, and any other shape raises [ValueError] without
    capturing or printing anything. *)
Theorem decodeMat_as_decodeBytes capture mat :
  decodeMat capture mat =
  match shape mat with
  | [h; w; c] => decodeBytes capture (tobytes mat) w h (w * c) IPF_RGB_888
  | [h; w] => decodeBytes capture (tobytes mat) w h w IPF_GRAYSCALED
  | _ => ([], Raise (PyError "ValueError" "unpack"))
  end.
Proof.
  destruct mat as [sh bytes]. unfold decodeMat, convertMat2ImageData, decodeBytes.
  cbn [shape tobytes].
  destruct sh as [|h [|w [|c [|d rest]]]]; cbn [List.length Nat.eqb res_bind]; try reflexivity.
  cbn. rewrite Nat.mul_1_r. reflexivity.
Qed.

End ScannerProofs.

Module FormatDateProofs.
Import Gui.

Lemma all_ascii (a : ascii) : In a (map ascii_of_nat (seq 0 256)).
Proof.
  rewrite <- (ascii_nat_embedding a). apply in_map, in_seq.
  pose proof (nat_ascii_bounded a). lia.
Qed.

Lemma forall_pairs (P : ascii -> ascii -> bool) :
  forallb (fun a => forallb (fun b => P a b) (map ascii_of_nat (seq 0 256)))
          (map ascii_of_nat (seq 0 256)) = true ->
  forall a b, P a b = true.
Proof.
  intros H a b. rewrite forallb_forall in H. specialize (H a (all_ascii a)).
  rewrite forallb_forall in H. exact (H b (all_ascii b)).
Qed.

(** What the formatting of one two-character chunk gives, whatever the
    chunk: [int()] fails, or its value [v] lies in [-9, 99], prints as two
    characters, and the year built from it prints as "19.." or "20..". *)
Definition chunk_ok (a b : ascii) : bool :=
  match py_int (String a (String b EmptyString)) with
  | None => true
  | Some v =>
      Z.leb (-9) v && Z.leb v 99 &&
      Nat.eqb (String.length (format_0d 2 v)) 2 &&
      (let y := if Z.leb v 30 then (v + 2000)%Z else (v + 1900)%Z in
       Nat.eqb (String.length (format_0d 4 y)) 4 &&
       (String.prefix "19" (format_0d 4 y) || String.prefix "20" (format_0d 4 y)))
  end.

Lemma chunk_ok_all a b : chunk_ok a b = true.
Proof. apply (forall_pairs chunk_ok). vm_compute. reflexivity. Qed.

(** For two digits, [int()] reads their value and the formatting gives the
    digits back. *)
Definition digits_ok (a b : ascii) : bool :=
  if is_digit a && is_digit b then
    let v := (Z.of_nat (nat_of_ascii a - 48) * 10 + Z.of_nat (nat_of_ascii b - 48))%Z in
    match py_int (String a (String b EmptyString)) with
    | Some w =>
        Z.eqb w v &&
        String.eqb (format_0d 2 v) (String a (String b EmptyString)) &&
        String.eqb (format_0d 4 (if Z.leb v 30 then (v + 2000)%Z else (v + 1900)%Z))
                   (String.append (if Z.leb v 30 then "20" else "19")
                                  (String a (String b EmptyString)))
    | None => false
    end
  else true.

Lemma digits_ok_all a b : digits_ok a b = true.
Proof. apply (forall_pairs digits_ok). vm_compute. reflexivity. Qed.

Lemma length2 (x : string) : String.length x = 2 -> exists c1 c2, x = String c1 (String c2 EmptyString).
Proof.
  destruct x as [|c1 [|c2 [|c3 x]]]; simpl; intros H; try discriminate. eauto.
Qed.

Lemma length4 (x : string) :
  String.length x = 4 ->
  exists c1 c2 c3 c4, x = String c1 (String c2 (String c3 (String c4 EmptyString))).
Proof.
  destruct x as [|c1 [|c2 [|c3 [|c4 [|c5 x]]]]]; simpl; intros H; try discriminate. eauto.
Qed.

Lemma length6 (s : string) :
  String.length s = 6 ->
  exists a1 a2 a3 a4 a5 a6,
    s = String a1 (String a2 (String a3 (String a4 (String a5 (String a6 EmptyString))))).
Proof.
  destruct s as [|a1 [|a2 [|a3 [|a4 [|a5 [|a6 [|a7 s]]]]]]]; simpl; intros H;
    try discriminate. eauto 7.
Qed.

(** [_format_date] returns its argument unchanged, or a ten-character
    "YYYY-MM-DD" string (the argument then has six characters) with a
    dash at positions 4 and 7 and a year beginning with "19" or "20". *)
Theorem format_date_shape s :
  format_date s = s \/
  (String.length s = 6 /\ String.length (format_date s) = 10 /\
   String.get 4 (format_date s) = Some "-"%char /\
   String.get 7 (format_date s) = Some "-"%char /\
   (String.prefix "19" (format_date s) || String.prefix "20" (format_date s) = true)).
Proof.
  unfold format_date.
  destruct (String.eqb s "" || negb (Nat.eqb (String.length s) 6)) eqn:Hg; [left; reflexivity|].
  apply orb_false_iff in Hg as [_ Hlen]. apply negb_false_iff, Nat.eqb_eq in Hlen.
  destruct (length6 s Hlen) as (a1 & a2 & a3 & a4 & a5 & a6 & ->).
  cbn [substring].
  pose proof (chunk_ok_all a1 a2) as Cy. pose proof (chunk_ok_all a3 a4) as Cm.
  pose proof (chunk_ok_all a5 a6) as Cd. unfold chunk_ok in Cy, Cm, Cd.
  destruct (py_int (String a1 (String a2 EmptyString))) as [y|]; [|left; reflexivity].
  destruct (py_int (String a3 (String a4 EmptyString))) as [m|]; [|left; reflexivity].
  destruct (py_int (String a5 (String a6 EmptyString))) as [d|]; [|left; reflexivity].
  right. split; [exact Hlen|].
  rewrite !andb_true_iff in Cy, Cm, Cd.
  destruct Cy as [_ [Cy4 Cpre]]. apply Nat.eqb_eq in Cy4.
  destruct Cm as [[_ Cm2] _]. apply Nat.eqb_eq in Cm2.
  destruct Cd as [[_ Cd2] _]. apply Nat.eqb_eq in Cd2.
  revert Cpre.
  destruct (length4 _ Cy4) as (c1 & c2 & c3 & c4 & ->).
  destruct (length2 _ Cm2) as (m1 & m2 & ->).
  destruct (length2 _ Cd2) as (d1 & d2 & ->).
  intros Cpre. simpl. simpl in Cpre.
  split; [reflexivity|]. split; [reflexivity|]. split; [reflexivity|]. exact Cpre.
Qed.

(** For six decimal digits "YYMMDD", [_format_date] inserts the century
    ("20" when YY is at most 30, "19" otherwise) and two dashes and keeps
    the digits as they are: it does not check that the month or the day
    exists. *)
Theorem format_date_digits a1 a2 a3 a4 a5 a6 :
  Forall (fun c => is_digit c = true) [a1; a2; a3; a4; a5; a6] ->
  format_date (String a1 (String a2 (String a3 (String a4 (String a5 (String a6 EmptyString)))))) =
  String.append
    (if Z.leb (Z.of_nat (nat_of_ascii a1 - 48) * 10 + Z.of_nat (nat_of_ascii a2 - 48)) 30
     then "20" else "19")
    (String a1 (String a2 (String "-" (String a3 (String a4 (String "-"
      (String a5 (String a6 EmptyString)))))))).
Proof.
  intros Hd. inversion Hd as [|? ? H1 Hd1]; subst.
  inversion Hd1 as [|? ? H2 Hd2]; subst. inversion Hd2 as [|? ? H3 Hd3]; subst.
  inversion Hd3 as [|? ? H4 Hd4]; subst. inversion Hd4 as [|? ? H5 Hd5]; subst.
  inversion Hd5 as [|? ? H6 _]; subst.
  pose proof (digits_ok_all a1 a2) as Dy. pose proof (digits_ok_all a3 a4) as Dm.
  pose proof (digits_ok_all a5 a6) as Dd. unfold digits_ok in Dy, Dm, Dd.
  rewrite H1, H2 in Dy. rewrite H3, H4 in Dm. rewrite H5, H6 in Dd. cbn [andb] in Dy, Dm, Dd.
  unfold format_date. cbn [substring String.eqb String.length Nat.eqb negb orb].
  destruct (py_int (String a1 (String a2 EmptyString))) as [y|]; [|discriminate].
  destruct (py_int (String a3 (String a4 EmptyString))) as [m|]; [|discriminate].
  destruct (py_int (String a5 (String a6 EmptyString))) as [d|]; [|discriminate].
  apply andb_true_iff in Dy as [Dy Dy4]. apply andb_true_iff in Dy as [Dy _].
  apply Z.eqb_eq in Dy. apply String.eqb_eq in Dy4.
  apply andb_true_iff in Dm as [Dm _]. apply andb_true_iff in Dm as [Dm Dm2].
  apply Z.eqb_eq in Dm. apply String.eqb_eq in Dm2.
  apply andb_true_iff in Dd as [Dd _]. apply andb_true_iff in Dd as [Dd Dd2].
  apply Z.eqb_eq in Dd. apply String.eqb_eq in Dd2.
  subst y m d. rewrite Dy4, Dm2, Dd2.
  destruct (Z.leb _ 30); reflexivity.
Qed.

(** "991399": a month 13 and a day 99 are formatted as they are. *)
Lemma format_date_digits_witness :
  Forall (fun c => is_digit c = true) ["9"; "9"; "1"; "3"; "9"; "9"]%char /\
  format_date "991399" = "1999-13-99".
Proof.
  split; [repeat constructor|].
  exact (format_date_digits "9" "9" "1" "3" "9" "9"
           ltac:(repeat constructor)).
Defined.

End FormatDateProofs.
